(** * PrivacyX: the session gate and the question-answering pipeline of main.py

    A shallow embedding of [main.py].  The two module-level dictionaries
    ([VALID_USERS], [sessions]) are threaded explicitly as a record of
    globals.  The three collaborators reached over the network or through a
    library (the sentence embedder, the Qdrant client, the Gemini model) are
    not part of the program: a handler body is a finite tree of calls to them,
    and a run of that tree against an arbitrary environment records every
    call that was made. *)

From stdpp Require Import gmap strings list pretty.

Local Open Scope string_scope.

(** ** Values owned by the collaborators

    The program never inspects an embedding vector, compares two scores or
    looks inside a payload value: it only passes vectors on and formats
    scores and payload values into text.  These types and the three library
    string operations used on them are therefore an interface. *)

Class Collaborators := {
  (** a row of the array returned by [SentenceTransformer.encode] *)
  Vector : Type;
  (** [ScoredPoint.score], a float *)
  Score : Type;
  (** a value stored in a point's payload dictionary *)
  Value : Type;
  (** [format(v, '')], what an f-string field [{v}] renders *)
  format_value : Value → string;
  (** [format(score, '.4f')] *)
  format_4f : Score → string;
  (** [str.strip()] *)
  strip : string → string;
}.

(** ** Requests, responses, exceptions *)

Record Request := { cookies : gmap string string }.

Inductive ContextValue :=
| CRequest (request : Request)
| CNone
| CStr (s : string)
| CList (l : list string).

Inductive Body :=
| Template (name : string) (context : list (string * ContextValue))
| Redirect (url : string).

Inductive CookieOp :=
| SetCookie (key value : string)
| DeleteCookie (key : string).

Record Response := {
  body : Body;
  status_code : Z;
  cookie_ops : list CookieOp;
}.

(** An exception raised inside a collaborator; the program only ever takes
    [str(e)] of it. *)
Record LibraryError := { str : string }.

Inductive Exception :=
| HTTPException (status_code : Z) (detail : string)
| IndexError
| Library (e : LibraryError).

(** [Response.set_cookie] belongs to the framework: it builds the header
    with [http.cookies] and encodes it as latin-1, and raises for a value it
    cannot put into a header (a [UnicodeEncodeError] for a character above
    code point 255, for instance).  Which values it refuses is the
    framework's business; the program only meets the exception. *)
Class CookieCodec := {
  (** the exception [response.set_cookie(key, value)] raises, if any *)
  set_cookie_raises : string → string → option LibraryError;
}.

(** [templates.TemplateResponse(name, context)]; the status code defaults to 200. *)
Definition TemplateResponse (name : string) (context : list (string * ContextValue)) : Response :=
  {| body := Template name context; status_code := 200; cookie_ops := [] |}.

Definition RedirectResponse (url : string) (status_code : Z) : Response :=
  {| body := Redirect url; status_code := status_code; cookie_ops := [] |}.

(** [response.set_cookie(key, value)]: the header is added to the response,
    or the call raises and the handler is left without a response. *)
Definition set_cookie `{CookieCodec} (key value : string) (response : Response)
  : Exception + Response :=
  match set_cookie_raises key value with
  | Some e => inl (Library e)
  | None =>
      inr {| body := body response; status_code := status_code response;
             cookie_ops := cookie_ops response ++ [SetCookie key value] |}
  end.

Definition delete_cookie (key : string) (response : Response) : Response :=
  {| body := body response; status_code := status_code response;
     cookie_ops := cookie_ops response ++ [DeleteCookie key] |}.

(** The cookies a response asks the browser to store. *)
Definition cookies_set (response : Response) : list (string * string) :=
  omap (λ op, match op with SetCookie k v => Some (k, v) | DeleteCookie _ => None end)
       (cookie_ops response).

(** ** The in-memory user database *)

Record Globals := {
  VALID_USERS : gmap string string;
  sessions : gmap string bool;
}.

Definition initial : Globals :=
  {| VALID_USERS := {[ "admin" := "admin123" ]}; sessions := ∅ |}.

Definition get_current_user (g : Globals) (request : Request) : Exception + string :=
  match cookies request !! "username" with
  | Some username =>
      if bool_decide (username = "") || negb (bool_decide (is_Some (sessions g !! username)))
      then inl (HTTPException 401 "Not authenticated")
      else inr username
  | None => inl (HTTPException 401 "Not authenticated")
  end.

Definition login_form (request : Request) : Response :=
  TemplateResponse "login.html" [("request", CRequest request); ("error", CNone)].

(** A handler that writes to the globals: what it returns or raises, and the
    globals it leaves.  [sessions[username] = True] comes before
    [response.set_cookie], so the session is written even when the cookie
    cannot be set. *)
Definition login `{CookieCodec} (request : Request) (username password : string)
    (g : Globals) : (Exception + Response) * Globals :=
  match VALID_USERS g !! username with
  | Some stored =>
      if bool_decide (stored = password) then
        let g' := {| VALID_USERS := VALID_USERS g;
                     sessions := <[username := true]> (sessions g) |} in
        let response := RedirectResponse "/home" 302 in
        (set_cookie "username" username response, g')
      else
        (inr (TemplateResponse "login.html"
                [("request", CRequest request);
                 ("error", CStr "❌ Invalid credentials. Please try again or sign up.")]),
         g)
  | None =>
      (inr (TemplateResponse "login.html"
              [("request", CRequest request);
               ("error", CStr "❌ Invalid credentials. Please try again or sign up.")]),
       g)
  end.

Definition signup_form (request : Request) : Response :=
  TemplateResponse "signup.html" [("request", CRequest request); ("error", CNone)].

Definition signup `{CookieCodec} (request : Request) (username password : string)
    (g : Globals) : (Exception + Response) * Globals :=
  if bool_decide (is_Some (VALID_USERS g !! username)) then
    (inr (TemplateResponse "signup.html"
            [("request", CRequest request);
             ("error", CStr "⚠️ Username already exists.")]), g)
  else
    let g1 := {| VALID_USERS := <[username := password]> (VALID_USERS g);
                 sessions := sessions g |} in
    let g2 := {| VALID_USERS := VALID_USERS g1;
                 sessions := <[username := true]> (sessions g1) |} in
    let response := RedirectResponse "/home" 302 in
    (set_cookie "username" username response, g2).

(** [sessions.pop(username, None)]: without the cookie the key is [None],
    which is never a key of [sessions], and nothing is removed. *)
Definition logout (request : Request) (g : Globals) : Response * Globals :=
  let username := cookies request !! "username" in
  let g' := {| VALID_USERS := VALID_USERS g;
               sessions := match username with
                           | Some u => delete u (sessions g)
                           | None => sessions g
                           end |} in
  let response := RedirectResponse "/" 302 in
  let response := delete_cookie "username" response in
  (response, g').

Definition home (request : Request) (user : string) : Response :=
  TemplateResponse "home.html" [("request", CRequest request); ("user", CStr user)].

(** The operations that write to the globals, as one step function. *)
Inductive Mutation :=
| Login (request : Request) (username password : string)
| Signup (request : Request) (username password : string)
| Logout (request : Request).

Definition exec `{CookieCodec} (m : Mutation) (g : Globals) : Globals :=
  match m with
  | Login request username password => (login request username password g).2
  | Signup request username password => (signup request username password g).2
  | Logout request => (logout request g).2
  end.

Inductive reachable `{CookieCodec} : Globals → Prop :=
| reachable_initial : reachable initial
| reachable_exec g m : reachable g → reachable (exec m g).

(** Every session key is a registered username. *)
Definition sessions_registered (g : Globals) : Prop :=
  ∀ username, is_Some (sessions g !! username) → is_Some (VALID_USERS g !! username).

(** ** The question-answering pipeline *)

Section Pipeline.
Context `{Collaborators}.

(** A hit of [qdrant.search]; only the two attributes the program reads. *)
Record ScoredPoint := { payload : gmap string Value; score : Score }.

(** The object returned by [generate_content]; reading its [text]
    property can itself raise. *)
Record GenerateContentResponse := { text : LibraryError + string }.

Inductive Call :=
| encode (sentences : list string)
| search (collection_name : string) (query_vector : Vector) (limit : Z)
         (with_payload : bool)
| generate_content (prompt : string).

Definition Returns (c : Call) : Type :=
  match c with
  | encode _ => list Vector
  | search _ _ _ _ => list ScoredPoint
  | generate_content _ => GenerateContentResponse
  end.

(** A handler body: it returns, raises, or calls a collaborator and
    continues with what the call returned or raised. *)
Inductive prog (A : Type) : Type :=
| Ret (a : A)
| Raise (e : Exception)
| Do (c : Call) (k : LibraryError + Returns c → prog A).
Global Arguments Ret {A} a.
Global Arguments Raise {A} e.
Global Arguments Do {A} c k.

Fixpoint bind {A B} (p : prog A) (f : A → prog B) : prog B :=
  match p with
  | Ret a => f a
  | Raise e => Raise e
  | Do c k => Do c (λ r, bind (k r) f)
  end.

Global Instance prog_ret : MRet prog := @Ret.
Global Instance prog_bind : MBind prog := λ A B f p, bind p f.

(** A call outside any [try]: an exception of the collaborator propagates. *)
Definition call (c : Call) : prog (Returns c) :=
  Do c (λ r, match r with inl e => Raise (Library e) | inr x => Ret x end).

(** [xs[0]] *)
Definition item0 {A} (xs : list A) : prog A :=
  match xs with
  | x :: _ => Ret x
  | [] => Raise IndexError
  end.

(** An environment answers every call from its own state [W]. *)
Definition Handler (W : Type) : Type :=
  ∀ c : Call, W → (LibraryError + Returns c) * W.

(** Running a body: the outcome, the environment's final state and the
    calls made, in order. *)
Fixpoint run {W A} (h : Handler W) (p : prog A) (w : W)
  : (Exception + A) * W * list Call :=
  match p with
  | Ret a => (inr a, w, [])
  | Raise e => (inl e, w, [])
  | Do c k =>
      let '(r, w1) := h c w in
      let '(out, w2, calls) := run h (k r) w1 in
      (out, w2, c :: calls)
  end.

Definition COLLECTION_NAME : string := "vdpo_documents".

(** [chr(10)] *)
Definition LF : string := String (Ascii.ascii_of_nat 10) "".

(** [sep.join(l)] *)
Fixpoint join (sep : string) (l : list string) : string :=
  match l with
  | [] => ""
  | s :: l' =>
      match l' with
      | [] => s
      | _ :: _ => s +:+ sep +:+ join sep l'
      end
  end.

(** [{r.payload.get(key, '')}] inside an f-string *)
Definition payload_get (r : ScoredPoint) (key : string) : string :=
  match payload r !! key with
  | Some v => format_value v
  | None => ""
  end.

Definition context_chunk (i : nat) (r : ScoredPoint) : string :=
  pretty i +:+ ". " +:+ payload_get r "text".

Definition source_line (r : ScoredPoint) : string :=
  "📄 " +:+ payload_get r "source" +:+ " (score: " +:+ format_4f (score r) +:+ ")".

(** The loop [for i, r in enumerate(results, 1)], started at index [i]
    with the two lists built so far. *)
Fixpoint enumerate_loop (i : nat) (results : list ScoredPoint)
         (context_chunks sources : list string) : list string * list string :=
  match results with
  | [] => (context_chunks, sources)
  | r :: results' =>
      enumerate_loop (S i) results'
        (context_chunks ++ [context_chunk i r])
        (sources ++ [source_line r])
  end.

(** The f-string assigned to [prompt]. *)
Definition build_prompt (question : string) (context_chunks : list string) : string :=
  "You are a Data Protection expert AI. Use the following document context to answer the user's question:"
  +:+ LF +:+ LF +:+ "CONTEXT:" +:+ LF +:+ join LF context_chunks
  +:+ LF +:+ LF +:+ "QUESTION:" +:+ LF +:+ question
  +:+ LF +:+ LF +:+ "ANSWER:".

(** The [try] / [except Exception as e] block: the value bound to [answer],
    from what [generate_content] returned or raised. *)
Definition answer_of (generated : LibraryError + GenerateContentResponse) : string :=
  match generated with
  | inr response =>
      match text response with
      | inr t => strip t
      | inl e => "Error: " +:+ str e
      end
  | inl e => "Error: " +:+ str e
  end.

Definition generate_answer (prompt : string) : prog string :=
  Do (generate_content prompt) (λ generated, Ret (answer_of generated)).

(** The page returned by [ask]. *)
Definition page (request : Request) (user question answer : string)
           (sources : list string) : Response :=
  TemplateResponse "home.html"
    [("request", CRequest request);
     ("user", CStr user);
     ("question", CStr question);
     ("answer", CStr answer);
     ("sources", CList sources)].

(** The body of [ask], entered once [user] has been resolved. *)
Definition ask (request : Request) (question : string) (user : string)
  : prog Response :=
  embeddings ← call (encode [question]);
  query_vector ← item0 embeddings;
  results ← call (search COLLECTION_NAME query_vector 5 true);
  let '(context_chunks, sources) := enumerate_loop 1 results [] [] in
  let prompt := build_prompt question context_chunks in
  answer ← generate_answer prompt;
  Ret (page request user question answer sources).

(** [user: str = Depends(get_current_user)]: the dependency is resolved
    before the endpoint body; if it raises, the body is never entered. *)
Definition depends_get_current_user {A} (g : Globals) (request : Request)
           (endpoint : string → prog A) : prog A :=
  match get_current_user g request with
  | inl e => Raise e
  | inr user => endpoint user
  end.

Definition route_home (g : Globals) (request : Request) : prog Response :=
  depends_get_current_user g request (λ user, Ret (home request user)).

(** [question: str = Form(...)] is the form field as the framework hands it
    to the endpoint. *)
Definition route_ask (g : Globals) (request : Request) (question : string)
  : prog Response :=
  depends_get_current_user g request (ask request question).

(** The prompt handed to the model in a list of calls, if any. *)
Definition prompts_of (calls : list Call) : list string :=
  omap (λ c, match c with generate_content p => Some p | _ => None end) calls.

(** The limits requested from the index in a list of calls. *)
Definition limits_of (calls : list Call) : list Z :=
  omap (λ c, match c with search _ _ k _ => Some k | _ => None end) calls.

(** Closed forms of the two lists built by the loop started at 1 (related
    to [enumerate_loop] by [enumerate_loop_from_1] below). *)
Definition numbered_chunks (results : list ScoredPoint) : list string :=
  imap (λ j r, context_chunk (S j) r) results.

Definition provenance (results : list ScoredPoint) : list string :=
  source_line <$> results.

End Pipeline.

(** ** Test doubles

    A concrete instance of the collaborators and a scripted environment, used
    to evaluate the handlers on concrete requests. *)

Definition stub_collaborators : Collaborators :=
  {| Vector := list Z;
     Score := Z;
     Value := string;
     format_value := λ v, v;
     format_4f := λ s, pretty s;
     strip := λ s, s |}.

(** A cookie codec that refuses exactly the values with a character above
    code point 255: in UTF-8 these are the strings with a byte of 196 or
    more. *)
Definition stub_codec : CookieCodec :=
  {| set_cookie_raises := λ _ value,
       if forallb (λ a, Nat.ltb (Ascii.nat_of_ascii a) 196)
                  (String.list_ascii_of_string value)
       then None
       else Some {| str := "'latin-1' codec can't encode characters" |} |}.

(** An environment without state: every sentence is embedded as [[0]], the
    index answers [hits] and the model answers [generated]. *)
Definition stub_env
    (hits : LibraryError + list (@ScoredPoint stub_collaborators))
    (generated : LibraryError + GenerateContentResponse)
  : @Handler stub_collaborators unit :=
  λ c, match c return unit → (LibraryError + @Returns stub_collaborators c) * unit with
       | encode sentences => λ w, (inr ((λ _, [0%Z]) <$> sentences), w)
       | search _ _ _ _ => λ w, (hits, w)
       | generate_content _ => λ w, (generated, w)
       end.

(** An environment whose embedder is down. *)
Definition stub_env_no_embedder (e : LibraryError) : @Handler stub_collaborators unit :=
  λ c, match c return unit → (LibraryError + @Returns stub_collaborators c) * unit with
       | encode _ => λ w, (inl e, w)
       | search _ _ _ _ => λ w, (inr [], w)
       | generate_content _ => λ w, (inl e, w)
       end.

Definition stub_hit (text_ source : string) (s : Z) : @ScoredPoint stub_collaborators :=
  @Build_ScoredPoint stub_collaborators
    (<["text" := text_]> (<["source" := source]> ∅)) s.

(** An environment whose embedder returns an array without rows. *)
Definition stub_env_no_rows : @Handler stub_collaborators unit :=
  λ c, match c return unit → (LibraryError + @Returns stub_collaborators c) * unit with
       | encode _ => λ w, (inr [], w)
       | search _ _ _ _ => λ w, (inr [], w)
       | generate_content _ => λ w, (inr {| text := inr "unused" |}, w)
       end.

(** A hit stored without any payload entry. *)
Definition stub_bare_hit (s : Z) : @ScoredPoint stub_collaborators :=
  @Build_ScoredPoint stub_collaborators ∅ s.

(** The state after [admin] has logged in, and a request carrying the cookie. *)
Definition admin_logged_in : Globals :=
  {| VALID_USERS := {[ "admin" := "admin123" ]}; sessions := {[ "admin" := true ]} |}.

Definition request_with_cookie (username : string) : Request :=
  {| cookies := {[ "username" := username ]} |}.

Definition request_without_cookie : Request := {| cookies := ∅ |}.

(** ** Sequences of writes *)

(** The writes of a list of requests, applied from left to right. *)
Definition exec_all `{CookieCodec} (ms : list Mutation) (g : Globals) : Globals :=
  foldl (λ g m, exec m g) g ms.

(** The username whose credential or session a write can touch: the form
    field of [login] and [signup], the cookie of [logout]. *)
Definition subject (m : Mutation) : option string :=
  match m with
  | Login _ username _ => Some username
  | Signup _ username _ => Some username
  | Logout request => cookies request !! "username"
  end.

(** A write that opens a session for [username] when applied to [g]: a login
    whose password is the stored one, or a signup of a name not yet taken. *)
Definition opens_session (m : Mutation) (username : string) (g : Globals) : Prop :=
  match m with
  | Login _ u password => u = username ∧ VALID_USERS g !! u = Some password
  | Signup _ u _ => u = username ∧ VALID_USERS g !! u = None
  | Logout _ => False
  end.

(** * Properties of the session gate *)

Section SessionGate.
Context `{CookieCodec}.
Implicit Types (g : Globals) (request : Request) (username password : string).

Lemma get_current_user_inr g request user :
  get_current_user g request = inr user ↔
  cookies request !! "username" = Some user ∧ user ≠ "" ∧ is_Some (sessions g !! user).
Proof.
  unfold get_current_user.
  destruct (cookies request !! "username") as [u|] eqn:Hc.
  - destruct (decide (u = "")) as [->|Hne].
    + rewrite bool_decide_eq_true_2 by done. simpl. split; [done|].
      intros (Hu & Hn & _). by inversion Hu; subst.
    + rewrite (bool_decide_eq_false_2 (u = "")) by done. simpl.
      destruct (decide (is_Some (sessions g !! u))) as [Hs|Hs].
      * rewrite bool_decide_eq_true_2 by done. simpl. split.
        -- intros [= <-]. done.
        -- intros ([= <-] & _ & _). done.
      * rewrite bool_decide_eq_false_2 by done. simpl. split; [done|].
        intros ([= <-] & _ & Hs'). done.
  - split; [done|]. intros (Hu & _). done.
Qed.

Lemma get_current_user_inl g request e :
  get_current_user g request = inl e → e = HTTPException 401 "Not authenticated".
Proof.
  unfold get_current_user.
  destruct (cookies request !! "username"); [|by intros [= <-]].
  destruct (_ || _); [by intros [= <-] | done].
Qed.

Lemma login_rejected request username password g :
  VALID_USERS g !! username ≠ Some password →
  login request username password g =
    (inr (TemplateResponse "login.html"
            [("request", CRequest request);
             ("error", CStr "❌ Invalid credentials. Please try again or sign up.")]),
     g).
Proof.
  intros Hne. unfold login.
  destruct (VALID_USERS g !! username) as [stored|]; [|done].
  rewrite bool_decide_eq_false_2; [done|]. intros ->. done.
Qed.

Lemma login_accepted request username password g :
  VALID_USERS g !! username = Some password →
  login request username password g =
    (set_cookie "username" username (RedirectResponse "/home" 302),
     {| VALID_USERS := VALID_USERS g; sessions := <[username := true]> (sessions g) |}).
Proof.
  intros Hv. unfold login. rewrite Hv. by rewrite bool_decide_eq_true_2.
Qed.

Lemma login_preserves request username password g :
  sessions_registered g → sessions_registered (login request username password g).2.
Proof.
  intros Hinv. destruct (decide (VALID_USERS g !! username = Some password)) as [Hv|Hv].
  - rewrite login_accepted by done. intros u. simpl.
    destruct (decide (username = u)) as [<-|Hne].
    + intros _. by rewrite Hv.
    + rewrite lookup_insert_ne by done. apply Hinv.
  - by rewrite login_rejected.
Qed.

Lemma signup_preserves request username password g :
  sessions_registered g → sessions_registered (signup request username password g).2.
Proof.
  intros Hinv. unfold signup. case_bool_decide as Hv; [done|].
  intros u. simpl. destruct (decide (username = u)) as [<-|Hne].
  - intros _. rewrite lookup_insert_eq. by eexists.
  - rewrite !lookup_insert_ne by done. apply Hinv.
Qed.

Lemma logout_preserves request g :
  sessions_registered g → sessions_registered (logout request g).2.
Proof.
  intros Hinv u. unfold logout. simpl.
  destruct (cookies request !! "username") as [c|]; [|apply Hinv].
  destruct (decide (c = u)) as [<-|Hne].
  - rewrite lookup_delete_eq. by intros [? ?].
  - rewrite lookup_delete_ne by done. apply Hinv.
Qed.

Lemma initial_registered : sessions_registered initial.
Proof. intros u. simpl. rewrite lookup_empty. by intros [? ?]. Qed.

Lemma exec_preserves m g : sessions_registered g → sessions_registered (exec m g).
Proof.
  destruct m; simpl;
    [apply login_preserves | apply signup_preserves | apply logout_preserves].
Qed.

(** In every state the program can reach, each session belongs to a
    registered user. *)
Lemma reachable_registered g : reachable g → sessions_registered g.
Proof. induction 1; [apply initial_registered | by apply exec_preserves]. Qed.

(** Credentials are never removed, and a stored secret is never replaced. *)
Lemma exec_keeps_credentials m g username password :
  VALID_USERS g !! username = Some password →
  VALID_USERS (exec m g) !! username = Some password.
Proof.
  intros Hv. destruct m as [r u p|r u p|r]; simpl.
  - unfold login. destruct (VALID_USERS g !! u); [|done]. by case_bool_decide.
  - unfold signup. case_bool_decide as Hu; [done|]. simpl.
    rewrite lookup_insert_ne; [done|]. intros ->. apply Hu. by eexists.
  - done.
Qed.

(** The password is checked at login only: afterwards the cookie value alone
    authenticates, whoever sends it. *)
Lemma bare_username_suffices request username password g request' :
  VALID_USERS g !! username = Some password →
  username ≠ "" →
  cookies request' !! "username" = Some username →
  get_current_user (login request username password g).2 request' = inr username.
Proof.
  intros Hv Hne Hc. rewrite login_accepted by done.
  apply get_current_user_inr. simpl. rewrite lookup_insert_eq. eauto.
Qed.

(** After logout the same request is no longer authenticated. *)
Lemma logout_then_not_authenticated request g :
  get_current_user (logout request g).2 request
  = inl (HTTPException 401 "Not authenticated").
Proof.
  destruct (get_current_user (logout request g).2 request) as [e|user] eqn:Hg.
  - by rewrite (get_current_user_inl _ _ _ Hg).
  - apply get_current_user_inr in Hg as (Hc & _ & [b Hs]).
    unfold logout in Hs. simpl in Hs. rewrite Hc, lookup_delete_eq in Hs. done.
Qed.

End SessionGate.

(** C5. A signup request whose username is already registered is answered
    with the signup form carrying the "Username already exists" error; the
    globals are returned as they were, so the stored secret of that user is
    not overwritten and no session is added, and the response sets no
    cookie. *)
Theorem signup_duplicate_user `{CookieCodec} (request : Request)
    (username password : string) (g : Globals) :
  is_Some (VALID_USERS g !! username) →
  (signup request username password g).1 =
    inr (TemplateResponse "signup.html"
           [("request", CRequest request); ("error", CStr "⚠️ Username already exists.")])
  ∧ (signup request username password g).2 = g
  ∧ VALID_USERS (signup request username password g).2 !! username
    = VALID_USERS g !! username
  ∧ sessions (signup request username password g).2 = sessions g
  ∧ (∀ response, (signup request username password g).1 = inr response →
                 cookies_set response = []).
Proof.
  intros Hreg. unfold signup. rewrite bool_decide_eq_true_2 by done. simpl.
  repeat split. by intros response [= <-].
Qed.

Lemma signup_duplicate_user_witness :
  is_Some (VALID_USERS initial !! "admin")
  ∧ (@signup stub_codec request_without_cookie "admin" "other" initial).2 = initial.
Proof.
  assert (Hreg : is_Some (VALID_USERS initial !! "admin")).
  { exists "admin123". vm_compute. reflexivity. }
  split; [exact Hreg|].
  exact (proj1 (proj2
    (@signup_duplicate_user stub_codec request_without_cookie "admin" "other"
       initial Hreg))).
Defined.

(** C6. A login request whose username is not registered, or whose password
    differs from the stored one, leaves the globals (and so the session
    registry) as they were, and is answered with the login form carrying the
    "Invalid credentials" error, which sets no cookie. *)
Theorem login_invalid_credentials `{CookieCodec} (request : Request)
    (username password : string) (g : Globals) :
  (VALID_USERS g !! username = None
   ∨ ∃ stored, VALID_USERS g !! username = Some stored ∧ stored ≠ password) →
  (login request username password g).2 = g
  ∧ sessions (login request username password g).2 = sessions g
  ∧ (∀ response, (login request username password g).1 = inr response →
                 cookies_set response = [])
  ∧ (login request username password g).1 =
      inr (TemplateResponse "login.html"
             [("request", CRequest request);
              ("error", CStr "❌ Invalid credentials. Please try again or sign up.")]).
Proof.
  intros Hbad. rewrite login_rejected.
  - simpl. repeat split. by intros response [= <-].
  - destruct Hbad as [Hn|(stored & Hs & Hne)]; rewrite ?Hn, ?Hs; [done|].
    intros [= ->]. done.
Qed.

Lemma login_invalid_credentials_witness :
  (VALID_USERS initial !! "admin" = None
   ∨ ∃ stored, VALID_USERS initial !! "admin" = Some stored ∧ stored ≠ "guess")
  ∧ sessions (@login stub_codec request_without_cookie "admin" "guess" initial).2 = ∅.
Proof.
  assert (Hbad : VALID_USERS initial !! "admin" = None
                 ∨ ∃ stored, VALID_USERS initial !! "admin" = Some stored
                             ∧ stored ≠ "guess").
  { right. exists "admin123". split; [vm_compute; reflexivity | discriminate]. }
  split; [exact Hbad|].
  exact (proj1 (proj2
    (@login_invalid_credentials stub_codec request_without_cookie "admin" "guess"
       initial Hbad))).
Defined.

(** C7. Every key of the session registry is a registered username: this
    holds of the initial globals and is preserved by each operation that
    writes to the globals (login, signup, logout). *)
Theorem sessions_registered_invariant `{CookieCodec} (g : Globals) (m : Mutation) :
  sessions_registered initial
  ∧ (sessions_registered g → sessions_registered (exec m g)).
Proof. split; [apply initial_registered | apply exec_preserves]. Qed.

Lemma sessions_registered_invariant_witness :
  sessions_registered initial
  ∧ sessions_registered
      (@exec stub_codec (Login request_without_cookie "admin" "admin123") initial).
Proof.
  pose proof (@sessions_registered_invariant stub_codec initial
                (Login request_without_cookie "admin" "admin123")) as [Hi Hstep].
  split; [exact Hi | exact (Hstep Hi)].
Defined.

(** C10. [get_current_user] returns the value of the [username] cookie
    exactly when the cookie is present, not empty and a key of [sessions];
    in every other case it raises HTTP 401.  Its result is determined by
    that cookie and the session keys alone: no password or other credential
    is consulted, so any request carrying the bare name of a logged-in user
    is authenticated as that user. *)
Theorem cookie_membership_authentication (g : Globals) (request : Request) :
  (∀ user, get_current_user g request = inr user ↔
           cookies request !! "username" = Some user ∧ user ≠ ""
           ∧ is_Some (sessions g !! user))
  ∧ ((¬ ∃ user, cookies request !! "username" = Some user ∧ user ≠ ""
                ∧ is_Some (sessions g !! user)) →
     get_current_user g request = inl (HTTPException 401 "Not authenticated"))
  ∧ (∀ g' request',
       sessions g' = sessions g →
       cookies request' !! "username" = cookies request !! "username" →
       get_current_user g' request' = get_current_user g request).
Proof.
  split; [intros user; apply get_current_user_inr|]. split.
  - intros Hno. destruct (get_current_user g request) as [e|user] eqn:Hg.
    + by rewrite (get_current_user_inl _ _ _ Hg).
    + exfalso. apply Hno. exists user. by apply get_current_user_inr.
  - intros g' request' Hs Hc. unfold get_current_user. by rewrite Hs, Hc.
Qed.

Lemma cookie_membership_authentication_witness :
  get_current_user admin_logged_in (request_with_cookie "admin") = inr "admin"
  ∧ get_current_user admin_logged_in request_without_cookie
    = inl (HTTPException 401 "Not authenticated").
Proof.
  split.
  - apply (proj1 (cookie_membership_authentication admin_logged_in
                    (request_with_cookie "admin"))).
    split; [vm_compute; reflexivity|]. split; [discriminate|].
    exists true. vm_compute. reflexivity.
  - apply (proj1 (proj2 (cookie_membership_authentication admin_logged_in
                           request_without_cookie))).
    intros (user & Hc & _). vm_compute in Hc. discriminate.
Defined.

(** * Properties of the pipeline *)

Section PipelineFacts.
Context `{Collaborators}.
Implicit Types (g : Globals) (request : Request) (question user : string)
               (results : list ScoredPoint).

(** The loop appends one numbered chunk and one provenance line per hit, in
    the order of the hits. *)
Lemma enumerate_loop_spec i results context_chunks sources :
  enumerate_loop i results context_chunks sources =
    ((context_chunks ++ imap (λ j r, context_chunk (i + j) r) results)%list,
     (sources ++ provenance results)%list).
Proof.
  revert i context_chunks sources.
  induction results as [|r results IH]; intros i cc ss; simpl.
  - by rewrite !app_nil_r.
  - rewrite IH, <- !app_assoc. simpl. rewrite Nat.add_0_r.
    do 3 f_equal. apply imap_ext. intros j x _. simpl. f_equal. lia.
Qed.

Lemma enumerate_loop_from_1 results :
  enumerate_loop 1 results [] [] = (numbered_chunks results, provenance results).
Proof. by rewrite enumerate_loop_spec. Qed.

Lemma numbered_chunks_lookup results j :
  numbered_chunks results !! j =
    (λ r, pretty (S j) +:+ ". " +:+ payload_get r "text") <$> results !! j.
Proof. unfold numbered_chunks. by rewrite list_lookup_imap. Qed.

(** The numbered chunks read nothing of a hit but its [text] entry. *)
Lemma numbered_chunks_text_only results results' :
  (λ r, payload r !! "text") <$> results = (λ r, payload r !! "text") <$> results' →
  numbered_chunks results = numbered_chunks results'.
Proof.
  intros Heq. apply list_eq. intros j. rewrite !numbered_chunks_lookup.
  apply (f_equal (λ l, l !! j)) in Heq. rewrite !list_lookup_fmap in Heq.
  destruct (results !! j) as [r|], (results' !! j) as [r'|]; simplify_eq/=; [|done].
  unfold payload_get. by rewrite Heq.
Qed.

(** Resolve the dependency with [Hg] and step into the body of [ask]. *)
Ltac enter_ask Hg :=
  unfold route_ask, depends_get_current_user; rewrite Hg; unfold ask; cbn.

Lemma run_unauthenticated {W} (h : Handler W) g request question w e :
  get_current_user g request = inl e →
  run h (route_ask g request question) w = (inl e, w, []).
Proof. intros Hg. unfold route_ask, depends_get_current_user. by rewrite Hg. Qed.

Lemma run_embedding_error {W} (h : Handler W) g request question user w e w1 :
  get_current_user g request = inr user →
  h (encode [question]) w = (inl e, w1) →
  run h (route_ask g request question) w = (inl (Library e), w1, [encode [question]]).
Proof.
  intros Hg He. enter_ask Hg. by rewrite He.
Qed.

Lemma run_no_embedding {W} (h : Handler W) g request question user w w1 :
  get_current_user g request = inr user →
  h (encode [question]) w = (inr [], w1) →
  run h (route_ask g request question) w = (inl IndexError, w1, [encode [question]]).
Proof.
  intros Hg He. enter_ask Hg. by rewrite He.
Qed.

Lemma run_search_error {W} (h : Handler W) g request question user w v vs w1 e w2 :
  get_current_user g request = inr user →
  h (encode [question]) w = (inr (v :: vs), w1) →
  h (search COLLECTION_NAME v 5 true) w1 = (inl e, w2) →
  run h (route_ask g request question) w =
    (inl (Library e), w2, [encode [question]; search COLLECTION_NAME v 5 true]).
Proof.
  intros Hg He Hs. enter_ask Hg. rewrite He. cbn. by rewrite Hs.
Qed.

Lemma run_completed {W} (h : Handler W) g request question user w v vs w1
      results w2 generated w3 :
  get_current_user g request = inr user →
  h (encode [question]) w = (inr (v :: vs), w1) →
  h (search COLLECTION_NAME v 5 true) w1 = (inr results, w2) →
  h (generate_content (build_prompt question (numbered_chunks results))) w2
    = (generated, w3) →
  run h (route_ask g request question) w =
    (inr (page request user question (answer_of generated) (provenance results)), w3,
     [encode [question]; search COLLECTION_NAME v 5 true;
      generate_content (build_prompt question (numbered_chunks results))]).
Proof.
  intros Hg He Hs Hgen. enter_ask Hg. rewrite He. cbn. rewrite Hs. cbn.
  rewrite enumerate_loop_from_1. cbn. rewrite Hgen.
  reflexivity.
Qed.

End PipelineFacts.

Section PipelineClaims.
Context `{Collaborators}.
Implicit Types (g : Globals) (request : Request) (question user : string)
               (results : list ScoredPoint).

Lemma no_session_not_authenticated g request :
  (cookies request !! "username" = None
   ∨ ∃ username, cookies request !! "username" = Some username
                 ∧ sessions g !! username = None) →
  get_current_user g request = inl (HTTPException 401 "Not authenticated").
Proof.
  intros Hno. destruct (get_current_user g request) as [e|user] eqn:Hg.
  - by rewrite (get_current_user_inl _ _ _ Hg).
  - apply get_current_user_inr in Hg as (Hc & _ & [b Hs]).
    destruct Hno as [Hn|(u & Hu & Hn)]; simplify_eq.
Qed.

(** Whatever happens, the index is only ever asked for five hits of the
    configured collection, payload included. *)
Lemma search_calls_of_ask {W} (h : Handler W) g request question w :
  Forall (λ c, match c with
               | search collection_name _ limit with_payload =>
                   collection_name = COLLECTION_NAME ∧ limit = 5%Z ∧ with_payload = true
               | _ => True
               end)
         (run h (route_ask g request question) w).2.
Proof.
  destruct (get_current_user g request) as [e|user] eqn:Hg.
  { rewrite (run_unauthenticated _ _ _ _ _ _ Hg). constructor. }
  destruct (h (encode [question]) w) as [[e|[|v vs]] w1] eqn:He.
  { rewrite (run_embedding_error _ _ _ _ _ _ _ _ Hg He). by repeat constructor. }
  { rewrite (run_no_embedding _ _ _ _ _ _ _ Hg He). by repeat constructor. }
  destruct (h (search COLLECTION_NAME v 5 true) w1) as [[e|results] w2] eqn:Hs.
  { rewrite (run_search_error _ _ _ _ _ _ _ _ _ _ _ Hg He Hs). by repeat constructor. }
  destruct (h (generate_content (build_prompt question (numbered_chunks results))) w2)
    as [generated w3] eqn:Hgen.
  rewrite (run_completed _ _ _ _ _ _ _ _ _ _ _ _ _ Hg He Hs Hgen).
  by repeat constructor.
Qed.

(** Once the caller is authenticated and the question embedded, exactly one
    search is issued, and it asks for five hits. *)
Lemma ask_requests_five {W} (h : Handler W) g request question user (w : W) v vs w1 :
  get_current_user g request = inr user →
  h (encode [question]) w = (inr (v :: vs), w1) →
  limits_of (run h (route_ask g request question) w).2 = [5%Z].
Proof.
  intros Hg He.
  destruct (h (search COLLECTION_NAME v 5 true) w1) as [[e|results] w2] eqn:Hs.
  { by rewrite (run_search_error _ _ _ _ _ _ _ _ _ _ _ Hg He Hs). }
  destruct (h (generate_content (build_prompt question (numbered_chunks results))) w2)
    as [generated w3] eqn:Hgen.
  by rewrite (run_completed _ _ _ _ _ _ _ _ _ _ _ _ _ Hg He Hs Hgen).
Qed.

(** The handler neither truncates nor reorders what the index returned: the
    provenance list and the numbered context have one entry per hit, in the
    order of the hits. *)
Lemma provenance_follows_results results :
  length (provenance results) = length results
  ∧ length (numbered_chunks results) = length results
  ∧ ∀ j, provenance results !! j = source_line <$> results !! j.
Proof.
  unfold provenance, numbered_chunks.
  rewrite length_fmap, length_imap. repeat split. intros j. apply list_lookup_fmap.
Qed.

(** C1. When the request has no [username] cookie, or the cookie names no
    active session, [/ask] raises HTTP 401 "Not authenticated" before its
    body is entered: in every environment the run makes no call to the
    embedder, the index or the model, and leaves the environment as it
    was. *)
Theorem ask_unauthenticated {W} (h : Handler W) g request question (w : W) :
  (cookies request !! "username" = None
   ∨ ∃ username, cookies request !! "username" = Some username
                 ∧ sessions g !! username = None) →
  route_ask g request question = Raise (HTTPException 401 "Not authenticated")
  ∧ run h (route_ask g request question) w
    = (inl (HTTPException 401 "Not authenticated"), w, []).
Proof.
  intros Hno. apply no_session_not_authenticated in Hno. split.
  - unfold route_ask, depends_get_current_user. by rewrite Hno.
  - by apply run_unauthenticated.
Qed.

(** C2. For an authenticated caller, when the embedder and the index have
    answered and the generation step raises (the call itself, or reading the
    text of what it returned), the request still completes: the response is
    the home page with status 200, its answer is "Error: " followed by the
    message of the exception, and its sources are the provenance lines of
    all retrieved hits. *)
Theorem generation_failure_recovered {W} (h : Handler W) g request question user
    (w : W) v vs w1 results w2 generated e w3 :
  get_current_user g request = inr user →
  h (encode [question]) w = (inr (v :: vs), w1) →
  h (search COLLECTION_NAME v 5 true) w1 = (inr results, w2) →
  h (generate_content (build_prompt question (enumerate_loop 1 results [] []).1)) w2
    = (generated, w3) →
  (generated = inl e ∨ ∃ response, generated = inr response ∧ text response = inl e) →
  ∃ response,
    (run h (route_ask g request question) w).1 = (inr response, w3)
    ∧ status_code response = 200%Z
    ∧ body response =
        Template "home.html"
          [("request", CRequest request);
           ("user", CStr user);
           ("question", CStr question);
           ("answer", CStr ("Error: " +:+ str e));
           ("sources", CList (source_line <$> results))]
    ∧ length (source_line <$> results) = length results.
Proof.
  intros Hg He Hs Hgen Hfail. rewrite enumerate_loop_from_1 in Hgen. simpl in Hgen.
  rewrite (run_completed _ _ _ _ _ _ _ _ _ _ _ _ _ Hg He Hs Hgen).
  eexists. split; [reflexivity|]. split; [reflexivity|].
  split; [|apply length_fmap].
  unfold page, TemplateResponse, provenance. simpl. do 6 f_equal.
  destruct Hfail as [->|(response & -> & Ht)]; simpl; [done|]. by rewrite Ht.
Qed.

(** C3. For an authenticated caller whose question was embedded, the request
    fails exactly when the search call fails: an exception raised by the
    index leaves the handler as the outcome of the request, after the two
    calls made so far and without any generation call, whereas a search
    that returns (an empty list included) always leads to a page.  An
    unreachable index therefore never shows as a page with an empty
    provenance list. *)
Theorem index_failure_is_fatal {W} (h : Handler W) g request question user
    (w : W) v vs w1 hits w2 :
  get_current_user g request = inr user →
  h (encode [question]) w = (inr (v :: vs), w1) →
  h (search COLLECTION_NAME v 5 true) w1 = (hits, w2) →
  match hits with
  | inl e =>
      run h (route_ask g request question) w =
        (inl (Library e), w2, [encode [question]; search COLLECTION_NAME v 5 true])
  | inr results =>
      ∃ answer,
        (run h (route_ask g request question) w).1.1 =
          inr (page request user question answer (provenance results))
  end.
Proof.
  intros Hg He Hs. destruct hits as [e|results].
  - by apply run_search_error with user vs w1.
  - destruct (h (generate_content (build_prompt question (numbered_chunks results))) w2)
      as [generated w3] eqn:Hgen.
    rewrite (run_completed _ _ _ _ _ _ _ _ _ _ _ _ _ Hg He Hs Hgen). by eexists.
Qed.

(** [join] is the standard concatenation with a separator. *)
Lemma join_concat sep (l : list string) : join sep l = String.concat sep l.
Proof.
  induction l as [|s l IH]; [done|]. destruct l as [|s' l]; [done|].
  change (join sep (s :: s' :: l)) with (s +:+ sep +:+ join sep (s' :: l)).
  by rewrite IH.
Qed.

Lemma numbered_chunks_explicit results :
  numbered_chunks results =
    imap (λ j r, pretty (S j) +:+ ". "
                 +:+ default "" (format_value <$> payload r !! "text")) results.
Proof.
  unfold numbered_chunks. apply imap_ext. intros j r _.
  unfold context_chunk, payload_get. by destruct (payload r !! "text").
Qed.

(** C4. The context lines built by the loop are the 1-based numbering of the
    hits' texts: line [j] is the decimal of [j+1], a dot, a space and the
    [text] entry of hit [j] (empty when absent), one line per hit.  The
    prompt is, in this order, the fixed instruction, a blank line, the
    CONTEXT header followed by these lines separated by line feeds, a blank
    line, the QUESTION header followed by the question, a blank line and the
    ANSWER cue.  It depends on the hits through their [text] entries only
    (neither score nor source reaches it), and in every run of [/ask] that
    gets as far as generation the prompt sent is this function of the
    question and the hits, whatever the globals, the request, the user or
    the state of the environment. *)
Theorem prompt_construction question results :
  (∀ j r, results !! j = Some r →
          (enumerate_loop 1 results [] []).1 !! j
          = Some (pretty (S j) +:+ ". "
                  +:+ default "" (format_value <$> payload r !! "text")))
  ∧ length (enumerate_loop 1 results [] []).1 = length results
  ∧ build_prompt question (enumerate_loop 1 results [] []).1 =
      (let lf := String (Ascii.ascii_of_nat 10) "" in
       "You are a Data Protection expert AI. Use the following document context to answer the user's question:"
       +:+ lf +:+ lf +:+ "CONTEXT:" +:+ lf
       +:+ String.concat lf
             (imap (λ j r, pretty (S j) +:+ ". "
                           +:+ default "" (format_value <$> payload r !! "text"))
                   results)
       +:+ lf +:+ lf +:+ "QUESTION:" +:+ lf +:+ question
       +:+ lf +:+ lf +:+ "ANSWER:")
  ∧ (∀ results',
       (λ r, payload r !! "text") <$> results' = (λ r, payload r !! "text") <$> results →
       build_prompt question (enumerate_loop 1 results' [] []).1
       = build_prompt question (enumerate_loop 1 results [] []).1)
  ∧ (∀ W (h : Handler W) g request user (w : W) v vs w1 w2,
       get_current_user g request = inr user →
       h (encode [question]) w = (inr (v :: vs), w1) →
       h (search COLLECTION_NAME v 5 true) w1 = (inr results, w2) →
       prompts_of (run h (route_ask g request question) w).2
       = [build_prompt question (enumerate_loop 1 results [] []).1]).
Proof.
  rewrite enumerate_loop_from_1. simpl. split.
  { intros j r Hr. by rewrite numbered_chunks_explicit, list_lookup_imap, Hr. }
  split; [unfold numbered_chunks; apply length_imap|]. split.
  { unfold build_prompt. by rewrite join_concat, numbered_chunks_explicit. }
  split.
  - intros results' Heq. rewrite !enumerate_loop_from_1. simpl.
    by rewrite (numbered_chunks_text_only _ _ Heq).
  - intros W h g request user w v vs w1 w2 Hg He Hs.
    destruct (h (generate_content (build_prompt question (numbered_chunks results))) w2)
      as [generated w3] eqn:Hgen.
    by rewrite (run_completed _ _ _ _ _ _ _ _ _ _ _ _ _ Hg He Hs Hgen).
Qed.

(** C9 (amended). The question is handed to the embedder as it is, empty or
    not.  For an authenticated caller, when the embedding call raises, that
    exception is the outcome of the request, and the run has made the
    embedding call only: no search, no prompt, no generation. *)
Theorem embedding_failure_is_fatal {W} (h : Handler W) g request question user
    (w : W) e w1 :
  get_current_user g request = inr user →
  h (encode [question]) w = (inl e, w1) →
  run h (route_ask g request question) w = (inl (Library e), w1, [encode [question]]).
Proof. apply run_embedding_error. Qed.

End PipelineClaims.

(** * Further properties of the session gate *)

Section SessionGateExtras.
Context `{CookieCodec}.
Implicit Types (g : Globals) (request : Request) (username password : string).

Lemma globals_eq g g' :
  VALID_USERS g = VALID_USERS g' → sessions g = sessions g' → g = g'.
Proof. destruct g, g'. simpl. by intros -> ->. Qed.

Lemma exec_all_snoc (ms : list Mutation) m g :
  exec_all (ms ++ [m]) g = exec m (exec_all ms g).
Proof. unfold exec_all. by rewrite foldl_app. Qed.

Lemma signup_accepted request username password g :
  VALID_USERS g !! username = None →
  signup request username password g =
    (set_cookie "username" username (RedirectResponse "/home" 302),
     {| VALID_USERS := <[username := password]> (VALID_USERS g);
        sessions := <[username := true]> (sessions g) |}).
Proof.
  intros Hv. unfold signup. rewrite bool_decide_eq_false_2; [done|].
  rewrite Hv. by intros [? ?].
Qed.

Lemma set_cookie_accepted key value response :
  set_cookie_raises key value = None →
  set_cookie key value response =
    inr {| body := body response; status_code := status_code response;
           cookie_ops := cookie_ops response ++ [SetCookie key value] |}.
Proof. intros Hok. unfold set_cookie. by rewrite Hok. Qed.

Lemma set_cookie_refused key value response e :
  set_cookie_raises key value = Some e →
  set_cookie key value response = inl (Library e).
Proof. intros Hno. unfold set_cookie. by rewrite Hno. Qed.

(** X1. A login with the stored password opens the session of that user and
    touches nothing else, whether or not the cookie can then be set.  When
    the framework accepts the name as a cookie value, the handler returns a
    redirect to /home with status 302 that sets exactly the cookie
    [username], and (the name not being empty) a later request that carries
    this cookie is authenticated as that user.  When the framework refuses
    the name, the handler raises that exception instead of returning, the
    session having been written already. *)
Theorem login_success request username password g :
  VALID_USERS g !! username = Some password →
  VALID_USERS (login request username password g).2 = VALID_USERS g
  ∧ sessions (login request username password g).2 !! username = Some true
  ∧ (∀ other, other ≠ username →
       sessions (login request username password g).2 !! other = sessions g !! other)
  ∧ (set_cookie_raises "username" username = None →
     ∃ response,
       (login request username password g).1 = inr response
       ∧ body response = Redirect "/home"
       ∧ status_code response = 302%Z
       ∧ cookies_set response = [("username", username)]
       ∧ (username ≠ "" →
          ∀ request',
            (∀ k v, (k, v) ∈ cookies_set response → cookies request' !! k = Some v) →
            get_current_user (login request username password g).2 request'
            = inr username))
  ∧ (∀ e, set_cookie_raises "username" username = Some e →
          (login request username password g).1 = inl (Library e)).
Proof.
  intros Hv. rewrite login_accepted by done. simpl.
  split; [done|]. split; [apply lookup_insert_eq|].
  split; [by intros other Hne; rewrite lookup_insert_ne|]. split.
  - intros Hok. rewrite set_cookie_accepted by done. eexists. split; [done|].
    simpl. repeat split.
    intros Hne request' Hc. apply get_current_user_inr. simpl.
    rewrite lookup_insert_eq. split; [|eauto].
    apply Hc. unfold cookies_set. simpl. apply list_elem_of_here.
  - intros e Hno. by apply set_cookie_refused.
Qed.

(** X2. A signup with a name not yet registered stores the password under
    that name, opens the session, and leaves the credentials and sessions of
    every other name as they were, whether or not the cookie can then be set.
    When the framework accepts the name as a cookie value, the handler
    returns a redirect to /home with status 302 that sets exactly the cookie
    [username], and (the name not being empty) a later request that carries
    this cookie is authenticated without any login.  When the framework
    refuses the name, the handler raises that exception instead of returning,
    the account and the session having been written already. *)
Theorem signup_success request username password g :
  VALID_USERS g !! username = None →
  VALID_USERS (signup request username password g).2 !! username = Some password
  ∧ sessions (signup request username password g).2 !! username = Some true
  ∧ (∀ other, other ≠ username →
       VALID_USERS (signup request username password g).2 !! other
       = VALID_USERS g !! other
       ∧ sessions (signup request username password g).2 !! other
         = sessions g !! other)
  ∧ (set_cookie_raises "username" username = None →
     ∃ response,
       (signup request username password g).1 = inr response
       ∧ body response = Redirect "/home"
       ∧ status_code response = 302%Z
       ∧ cookies_set response = [("username", username)]
       ∧ (username ≠ "" →
          ∀ request',
            (∀ k v, (k, v) ∈ cookies_set response → cookies request' !! k = Some v) →
            get_current_user (signup request username password g).2 request'
            = inr username))
  ∧ (∀ e, set_cookie_raises "username" username = Some e →
          (signup request username password g).1 = inl (Library e)).
Proof.
  intros Hv. rewrite signup_accepted by done. simpl.
  split; [apply lookup_insert_eq|]. split; [apply lookup_insert_eq|].
  split; [by intros other Hne; rewrite !lookup_insert_ne|]. split.
  - intros Hok. rewrite set_cookie_accepted by done. eexists. split; [done|].
    simpl. repeat split.
    intros Hne request' Hc. apply get_current_user_inr. simpl.
    rewrite lookup_insert_eq. split; [|eauto].
    apply Hc. unfold cookies_set. simpl. apply list_elem_of_here.
  - intros e Hno. by apply set_cookie_refused.
Qed.

(** X3. Logout redirects to "/" with status 302, deletes the cookie
    [username] and sets none.  It removes the session named by the request's
    cookie and nothing else: credentials and all other sessions are kept, and
    without the cookie, or when that user has no session, the globals are
    returned unchanged (no error). *)
Theorem logout_effect request g :
  body (logout request g).1 = Redirect "/"
  ∧ status_code (logout request g).1 = 302%Z
  ∧ cookie_ops (logout request g).1 = [DeleteCookie "username"]
  ∧ cookies_set (logout request g).1 = []
  ∧ VALID_USERS (logout request g).2 = VALID_USERS g
  ∧ (∀ username, cookies request !! "username" = Some username →
       sessions (logout request g).2 !! username = None)
  ∧ (∀ other, cookies request !! "username" ≠ Some other →
       sessions (logout request g).2 !! other = sessions g !! other)
  ∧ ((∀ username, cookies request !! "username" = Some username →
        sessions g !! username = None) →
     (logout request g).2 = g).
Proof.
  unfold logout. simpl. repeat split.
  - intros u ->. apply lookup_delete_eq.
  - intros other Hne. destruct (cookies request !! "username") as [u|]; [|done].
    rewrite lookup_delete_ne; [done|]. by intros ->.
  - intros Hnone. apply globals_eq; simpl; [done|].
    destruct (cookies request !! "username") as [u|]; [|done].
    apply delete_id. by apply Hnone.
Qed.

(** X4. Repeating a request changes nothing more: a second identical login
    returns the same response and leaves the globals of the first, and so
    does a second identical logout. *)
Theorem login_logout_idempotent request username password g :
  login request username password (login request username password g).2
  = login request username password g
  ∧ logout request (logout request g).2 = logout request g.
Proof.
  split.
  - destruct (decide (VALID_USERS g !! username = Some password)) as [Hv|Hv].
    + rewrite (login_accepted _ _ _ g) by done.
      rewrite login_accepted by done. simpl. by rewrite insert_insert_eq.
    + rewrite (login_rejected _ _ _ g Hv). simpl.
      by rewrite (login_rejected _ _ _ g Hv).
  - unfold logout. simpl. do 2 f_equal.
    destruct (cookies request !! "username") as [u|]; [|done].
    by rewrite delete_delete_eq.
Qed.

(** X5. Login followed by the logout of the same user is a round trip: from
    globals in which the user has no session, a successful login and then a
    logout carrying that user's cookie give back the very same globals. *)
Theorem login_then_logout request username password request' g :
  VALID_USERS g !! username = Some password →
  sessions g !! username = None →
  cookies request' !! "username" = Some username →
  (logout request' (login request username password g).2).2 = g.
Proof.
  intros Hv Hs Hc. rewrite login_accepted by done.
  unfold logout. simpl. rewrite Hc. apply globals_eq; simpl; [done|].
  by apply delete_insert_id.
Qed.

(** X6. An account outlives its sessions: after a signup of a free name, a
    logout of that user and a login with the password chosen at signup, the
    globals are exactly those right after the signup. *)
Theorem signup_logout_login request1 request2 request3 username password g :
  VALID_USERS g !! username = None →
  cookies request2 !! "username" = Some username →
  exec_all [Signup request1 username password; Logout request2;
            Login request3 username password] g
  = exec (Signup request1 username password) g.
Proof.
  intros Hv Hc. unfold exec_all. simpl.
  rewrite signup_accepted by done. unfold logout. simpl. rewrite Hc.
  rewrite login_accepted by (simpl; apply lookup_insert_eq). simpl.
  apply globals_eq; simpl; [done|].
  by rewrite insert_delete_eq, insert_insert_eq.
Qed.

(** X7. No sequence of logins, signups and logouts removes a credential or
    changes a stored password. *)
Theorem passwords_never_change (ms : list Mutation) g username password :
  VALID_USERS g !! username = Some password →
  VALID_USERS (exec_all ms g) !! username = Some password.
Proof.
  intros Hv. induction ms as [|m ms IH] using rev_ind; [done|].
  rewrite exec_all_snoc. by apply exec_keeps_credentials.
Qed.

(** X8. In every state the program can reach, the built-in account [admin]
    with password [admin123] is still registered. *)
Theorem admin_account_persists g :
  reachable g → VALID_USERS g !! "admin" = Some "admin123".
Proof.
  induction 1 as [|g m _ IH]; [|by apply exec_keeps_credentials].
  simpl. apply lookup_singleton_eq.
Qed.

(** X9. A write only concerns its own subject: a login, signup or logout for
    one username leaves the credential and the session of every other
    username as they were, so a request carrying another user's cookie is
    authenticated after the write exactly as before. *)
Theorem other_users_unaffected (m : Mutation) g username request :
  subject m ≠ Some username →
  VALID_USERS (exec m g) !! username = VALID_USERS g !! username
  ∧ sessions (exec m g) !! username = sessions g !! username
  ∧ (cookies request !! "username" = Some username →
     get_current_user (exec m g) request = get_current_user g request).
Proof.
  intros Hsub.
  assert (Hs : sessions (exec m g) !! username = sessions g !! username).
  { destruct m as [r u p|r u p|r]; simpl in *.
    - unfold login. destruct (VALID_USERS g !! u); [|done].
      case_bool_decide; [|done]. simpl. rewrite lookup_insert_ne; [done|].
      by intros ->.
    - unfold signup. case_bool_decide; [done|]. simpl.
      rewrite lookup_insert_ne; [done|]. by intros ->.
    - destruct (cookies r !! "username") as [u|]; [|done].
      rewrite lookup_delete_ne; [done|]. by intros ->. }
  split; [|split; [exact Hs|]].
  - destruct m as [r u p|r u p|r]; simpl in *.
    + unfold login. destruct (VALID_USERS g !! u); [|done]. by case_bool_decide.
    + unfold signup. case_bool_decide; [done|]. simpl.
      rewrite lookup_insert_ne; [done|]. by intros ->.
    + done.
  - intros Hc. unfold get_current_user. rewrite Hc. by rewrite Hs.
Qed.

(** X10. In every reachable state, whoever [get_current_user] accepts is a
    registered user with a non-empty name, namely the value of the request's
    [username] cookie. *)
Theorem authenticated_is_registered g request user :
  reachable g →
  get_current_user g request = inr user →
  cookies request !! "username" = Some user
  ∧ user ≠ ""
  ∧ is_Some (VALID_USERS g !! user).
Proof.
  intros Hr Hg. apply get_current_user_inr in Hg as (Hc & Hne & Hs).
  split; [done|]. split; [done|]. by apply (reachable_registered g Hr).
Qed.

(** X11. A session has an origin: if a user has a session after a sequence
    of writes and had none before it, then the sequence contains a login of
    that user whose password matched the stored one at that moment, or a
    signup of that name while it was free. *)
Theorem session_has_origin (ms : list Mutation) g username :
  sessions g !! username = None →
  is_Some (sessions (exec_all ms g) !! username) →
  ∃ before m after,
    ms = (before ++ m :: after)%list
    ∧ opens_session m username (exec_all before g).
Proof.
  intros Hnone. induction ms as [|m ms IH] using rev_ind.
  { simpl. rewrite Hnone. by intros [? ?]. }
  rewrite exec_all_snoc. intros Hs.
  assert (Hold : is_Some (sessions (exec_all ms g) !! username) →
                 ∃ before m0 after,
                   (ms ++ [m] = before ++ m0 :: after)%list
                   ∧ opens_session m0 username (exec_all before g)).
  { intros Hprev. destruct (IH Hprev) as (before & m0 & after & -> & Hopen).
    exists before, m0, (after ++ [m])%list. split; [|done].
    by rewrite <- app_assoc. }
  destruct m as [r u p|r u p|r]; simpl in Hs.
  - unfold login in Hs. destruct (VALID_USERS (exec_all ms g) !! u) as [stored|] eqn:Hv;
      [|by apply Hold].
    case_bool_decide as Hp; [|by apply Hold]. simpl in Hs. subst stored.
    destruct (decide (u = username)) as [->|Hne].
    + exists ms, (Login r username p), []. split; [done|]. simpl. done.
    + rewrite lookup_insert_ne in Hs by done. by apply Hold.
  - unfold signup in Hs. case_bool_decide as Hv; [by apply Hold|]. simpl in Hs.
    destruct (decide (u = username)) as [->|Hne].
    + exists ms, (Signup r username p), []. split; [done|]. simpl. split; [done|].
      destruct (VALID_USERS (exec_all ms g) !! username) eqn:E; [|done].
      exfalso. apply Hv. by eexists.
    + rewrite lookup_insert_ne in Hs by done. by apply Hold.
  - destruct (cookies r !! "username") as [u|]; [|by apply Hold].
    destruct (decide (u = username)) as [->|Hne].
    + rewrite lookup_delete_eq in Hs. by destruct Hs.
    + rewrite lookup_delete_ne in Hs by done. by apply Hold.
Qed.

End SessionGateExtras.

(** * Further properties of the routes *)

Section RouteExtras.
Context `{Collaborators}.
Implicit Types (g : Globals) (request : Request) (question user : string)
               (results : list ScoredPoint).

Lemma logout_closes_session request g request' :
  cookies request' !! "username" = cookies request !! "username" →
  get_current_user (logout request g).2 request'
  = inl (HTTPException 401 "Not authenticated").
Proof.
  intros Hsame.
  destruct (get_current_user (logout request g).2 request') as [e|user] eqn:Hg.
  - by rewrite (get_current_user_inl _ _ _ Hg).
  - apply get_current_user_inr in Hg as (Hc & _ & [b Hs]).
    unfold logout in Hs. simpl in Hs.
    rewrite <- Hsame, Hc, lookup_delete_eq in Hs. done.
Qed.

(** The four shapes a run of [/ask] can take. *)
Lemma run_ask_cases {W} (h : Handler W) g request question (w : W) :
  (get_current_user g request = inl (HTTPException 401 "Not authenticated")
   ∧ run h (route_ask g request question) w
     = (inl (HTTPException 401 "Not authenticated"), w, []))
  ∨ (∃ user w1 e,
       get_current_user g request = inr user
       ∧ (e = IndexError ∨ ∃ le, e = Library le)
       ∧ run h (route_ask g request question) w = (inl e, w1, [encode [question]]))
  ∨ (∃ user v w2 le,
       get_current_user g request = inr user
       ∧ run h (route_ask g request question) w
         = (inl (Library le), w2, [encode [question]; search COLLECTION_NAME v 5 true]))
  ∨ (∃ user v results generated w3,
       get_current_user g request = inr user
       ∧ run h (route_ask g request question) w
         = (inr (page request user question (answer_of generated) (provenance results)),
            w3,
            [encode [question]; search COLLECTION_NAME v 5 true;
             generate_content (build_prompt question (numbered_chunks results))])).
Proof.
  destruct (get_current_user g request) as [e|user] eqn:Hg.
  { left. pose proof (get_current_user_inl _ _ _ Hg) as ->.
    split; [done|]. by apply run_unauthenticated. }
  right. destruct (h (encode [question]) w) as [[e|[|v vs]] w1] eqn:He.
  { left. exists user, w1, (Library e). split; [done|]. split; [eauto|].
    by apply run_embedding_error with user. }
  { left. exists user, w1, IndexError. split; [done|]. split; [eauto|].
    by apply run_no_embedding with user. }
  right. destruct (h (search COLLECTION_NAME v 5 true) w1) as [[e|results] w2] eqn:Hs.
  { left. exists user, v, w2, e. split; [done|].
    by apply run_search_error with user vs w1. }
  right.
  destruct (h (generate_content (build_prompt question (numbered_chunks results))) w2)
    as [generated w3] eqn:Hgen.
  exists user, v, results, generated, w3. split; [done|].
  by apply run_completed with vs w1 w2.
Qed.

(** X12. [/home] makes no call to any collaborator.  For a request whose
    [username] cookie is not empty and names an active session it returns the
    home page for that user with status 200; for every other request it
    raises HTTP 401. *)
Theorem home_route {W} (h : Handler W) g request (w : W) :
  (∀ user,
     cookies request !! "username" = Some user → user ≠ "" →
     is_Some (sessions g !! user) →
     run h (route_home g request) w
     = (inr (TemplateResponse "home.html"
               [("request", CRequest request); ("user", CStr user)]), w, []))
  ∧ ((¬ ∃ user, cookies request !! "username" = Some user ∧ user ≠ ""
                ∧ is_Some (sessions g !! user)) →
     run h (route_home g request) w
     = (inl (HTTPException 401 "Not authenticated"), w, [])).
Proof.
  split.
  - intros user Hc Hne Hs. unfold route_home, depends_get_current_user.
    by rewrite (proj2 (get_current_user_inr g request user)).
  - intros Hno. unfold route_home, depends_get_current_user.
    destruct (get_current_user g request) as [e|user] eqn:Hg.
    + by rewrite (get_current_user_inl _ _ _ Hg).
    + exfalso. apply Hno. exists user. by apply get_current_user_inr.
Qed.

(** X13. After a logout, a request that still carries the same [username]
    cookie is refused by [/home] and by [/ask] with HTTP 401, without any
    call to a collaborator; the logout itself needs no authentication. *)
Theorem logout_then_refused {W} (h : Handler W) g request request' question (w : W) :
  cookies request' !! "username" = cookies request !! "username" →
  run h (route_home (logout request g).2 request') w
  = (inl (HTTPException 401 "Not authenticated"), w, [])
  ∧ run h (route_ask (logout request g).2 request' question) w
    = (inl (HTTPException 401 "Not authenticated"), w, []).
Proof.
  intros Hsame. pose proof (logout_closes_session request g request' Hsame) as Hg.
  split.
  - unfold route_home, depends_get_current_user. by rewrite Hg.
  - by apply run_unauthenticated.
Qed.

(** X14. When every step succeeds, [/ask] returns the home page with status
    200 and no cookie: it echoes the user and the question, its answer is the
    stripped text of the model's response and its sources are the provenance
    lines built by the loop.  The embedder is given the question alone, the
    index is searched with the first row of what the embedder returned, and
    the three calls are made once each, in that order. *)
Theorem ask_success {W} (h : Handler W) g request question user (w : W)
    v vs w1 results w2 response w3 t :
  get_current_user g request = inr user →
  h (encode [question]) w = (inr (v :: vs), w1) →
  h (search COLLECTION_NAME v 5 true) w1 = (inr results, w2) →
  h (generate_content (build_prompt question (enumerate_loop 1 results [] []).1)) w2
    = (inr response, w3) →
  text response = inr t →
  run h (route_ask g request question) w
  = (inr {| body := Template "home.html"
                      [("request", CRequest request);
                       ("user", CStr user);
                       ("question", CStr question);
                       ("answer", CStr (strip t));
                       ("sources", CList (enumerate_loop 1 results [] []).2)];
            status_code := 200;
            cookie_ops := [] |},
     w3,
     [encode [question];
      search COLLECTION_NAME v 5 true;
      generate_content (build_prompt question (enumerate_loop 1 results [] []).1)]).
Proof.
  intros Hg He Hs Hgen Ht. rewrite enumerate_loop_from_1 in *. simpl in *.
  rewrite (run_completed _ _ _ _ _ _ _ _ _ _ _ _ _ Hg He Hs Hgen).
  unfold page, TemplateResponse, answer_of. by rewrite Ht.
Qed.

(** X15. Whatever the collaborators do, a run of [/ask] calls them in the
    fixed order embedder, index, model, each at most once and never a later
    one without the earlier ones: there is no retry and no call out of
    order. *)
Theorem ask_call_discipline {W} (h : Handler W) g request question (w : W) :
  (run h (route_ask g request question) w).2 = []
  ∨ (run h (route_ask g request question) w).2 = [encode [question]]
  ∨ (∃ v, (run h (route_ask g request question) w).2
          = [encode [question]; search COLLECTION_NAME v 5 true])
  ∨ (∃ v results,
       (run h (route_ask g request question) w).2
       = [encode [question]; search COLLECTION_NAME v 5 true;
          generate_content (build_prompt question (enumerate_loop 1 results [] []).1)]).
Proof.
  destruct (run_ask_cases h g request question w)
    as [[_ ->]|[(user & w1 & e & _ & _ & ->)|[(user & v & w2 & le & _ & ->)
       |(user & v & results & generated & w3 & _ & ->)]]]; simpl.
  - by left.
  - right. by left.
  - right. right. left. by exists v.
  - right. right. right. exists v, results. by rewrite enumerate_loop_from_1.
Qed.

(** X16. The outcomes of [/ask].  If the request returns a response at all,
    the caller was authenticated, the model was called, and the response is
    the home page for that caller and question with status 200 and no
    cookie.  If it fails, the model was never called, and the only HTTP
    exception it can fail with is the 401 raised before any call. *)
Theorem ask_outcomes {W} (h : Handler W) g request question (w : W) :
  match (run h (route_ask g request question) w).1.1 with
  | inr response =>
      (∃ user answer results,
         get_current_user g request = inr user
         ∧ response = page request user question answer (source_line <$> results))
      ∧ status_code response = 200%Z
      ∧ cookies_set response = []
      ∧ length (prompts_of (run h (route_ask g request question) w).2) = 1
  | inl e =>
      prompts_of (run h (route_ask g request question) w).2 = []
      ∧ ∀ status detail,
          e = HTTPException status detail →
          status = 401%Z ∧ (run h (route_ask g request question) w).2 = []
  end.
Proof.
  destruct (run_ask_cases h g request question w)
    as [[_ ->]|[(user & w1 & e & _ & He & ->)|[(user & v & w2 & le & _ & ->)
       |(user & v & results & generated & w3 & Hg & ->)]]]; simpl.
  - split; [done|]. by intros status detail [= <- _].
  - split; [done|]. intros status detail ->. by destruct He as [|[? ?]].
  - split; [done|]. by intros status detail.
  - split; [|done]. by exists user, (answer_of generated), results.
Qed.

(** X17. An index that returns no hit is not an error: the model is still
    called, with a prompt whose CONTEXT block is empty, and the page is
    returned with an empty list of sources. *)
Theorem ask_no_hits {W} (h : Handler W) g request question user (w : W) v vs w1 w2 :
  get_current_user g request = inr user →
  h (encode [question]) w = (inr (v :: vs), w1) →
  h (search COLLECTION_NAME v 5 true) w1 = (inr [], w2) →
  ∃ (generated : LibraryError + GenerateContentResponse) (w3 : W) (prompt : string),
    prompt =
      "You are a Data Protection expert AI. Use the following document context to answer the user's question:"
      +:+ LF +:+ LF +:+ "CONTEXT:" +:+ LF
      +:+ LF +:+ LF +:+ "QUESTION:" +:+ LF +:+ question
      +:+ LF +:+ LF +:+ "ANSWER:"
    ∧ h (generate_content prompt) w2 = (generated, w3)
    ∧ run h (route_ask g request question) w
      = (inr (page request user question (answer_of generated) []), w3,
         [encode [question]; search COLLECTION_NAME v 5 true; generate_content prompt]).
Proof.
  intros Hg He Hs.
  destruct (h (generate_content (build_prompt question (numbered_chunks []))) w2)
    as [generated w3] eqn:Hgen.
  exists generated, w3, (build_prompt question (numbered_chunks [])).
  split; [reflexivity|]. split; [done|].
  by rewrite (run_completed _ _ _ _ _ _ _ _ _ _ _ _ _ Hg He Hs Hgen).
Qed.

(** X18. The loop writes one context line and one provenance line per hit, at
    the position of the hit.  A hit whose payload lacks [text] or [source]
    raises nothing: the missing entry is rendered as the empty string. *)
Theorem loop_lines results j r :
  results !! j = Some r →
  (enumerate_loop 1 results [] []).1 !! j
  = Some (pretty (S j) +:+ ". " +:+ default "" (format_value <$> payload r !! "text"))
  ∧ (enumerate_loop 1 results [] []).2 !! j
    = Some ("📄 " +:+ default "" (format_value <$> payload r !! "source")
            +:+ " (score: " +:+ format_4f (score r) +:+ ")")
  ∧ length (enumerate_loop 1 results [] []).1 = length results
  ∧ length (enumerate_loop 1 results [] []).2 = length results.
Proof.
  intros Hr. rewrite enumerate_loop_from_1. simpl.
  unfold numbered_chunks, provenance.
  rewrite list_lookup_imap, list_lookup_fmap, Hr, length_imap, length_fmap. simpl.
  unfold context_chunk, source_line, payload_get.
  repeat split; by destruct (payload r !! _).
Qed.

(** X19. If the embedder returns no row, taking row 0 raises [IndexError]:
    the request fails with it after the embedding call, and neither the index
    nor the model is called. *)
Theorem ask_no_embedding_row {W} (h : Handler W) g request question user (w : W) w1 :
  get_current_user g request = inr user →
  h (encode [question]) w = (inr [], w1) →
  run h (route_ask g request question) w = (inl IndexError, w1, [encode [question]]).
Proof. apply run_no_embedding. Qed.

End RouteExtras.

(** * The claims on concrete requests *)

#[local] Existing Instance stub_collaborators.

Lemma ask_unauthenticated_witness :
  (cookies (request_with_cookie "mallory") !! "username" = None
   ∨ ∃ username, cookies (request_with_cookie "mallory") !! "username" = Some username
                 ∧ sessions admin_logged_in !! username = None)
  ∧ run (stub_env (inr []) (inr {| text := inr "unused" |}))
        (route_ask admin_logged_in (request_with_cookie "mallory") "What is consent?") tt
    = (inl (HTTPException 401 "Not authenticated"), tt, []).
Proof.
  assert (Hno : cookies (request_with_cookie "mallory") !! "username" = None
                ∨ ∃ username,
                    cookies (request_with_cookie "mallory") !! "username" = Some username
                    ∧ sessions admin_logged_in !! username = None).
  { right. exists "mallory". split; vm_compute; reflexivity. }
  split; [exact Hno|].
  exact (proj2 (@ask_unauthenticated stub_collaborators unit
                  (stub_env (inr []) (inr {| text := inr "unused" |}))
                  admin_logged_in (request_with_cookie "mallory")
                  "What is consent?" tt Hno)).
Defined.

Lemma generation_failure_recovered_witness :
  ∃ response,
    (run (stub_env (inr [stub_hit "alpha" "a.pdf" 9100; stub_hit "beta" "b.pdf" 8700])
                   (inl {| str := "503 backend unavailable" |}))
         (route_ask admin_logged_in (request_with_cookie "admin") "What is consent?") tt).1
    = (inr response, tt)
    ∧ status_code response = 200%Z
    ∧ body response =
        Template "home.html"
          [("request", CRequest (request_with_cookie "admin"));
           ("user", CStr "admin");
           ("question", CStr "What is consent?");
           ("answer", CStr "Error: 503 backend unavailable");
           ("sources", CList ["📄 a.pdf (score: 9100)"; "📄 b.pdf (score: 8700)"])]
    ∧ length ["📄 a.pdf (score: 9100)"; "📄 b.pdf (score: 8700)"] = 2.
Proof.
  exact (@generation_failure_recovered stub_collaborators unit
           (stub_env (inr [stub_hit "alpha" "a.pdf" 9100; stub_hit "beta" "b.pdf" 8700])
                     (inl {| str := "503 backend unavailable" |}))
           admin_logged_in (request_with_cookie "admin") "What is consent?" "admin"
           tt [0%Z] [] tt
           [stub_hit "alpha" "a.pdf" 9100; stub_hit "beta" "b.pdf" 8700] tt
           (inl {| str := "503 backend unavailable" |})
           {| str := "503 backend unavailable" |} tt
           eq_refl eq_refl eq_refl eq_refl (or_introl eq_refl)).
Defined.

Lemma index_failure_is_fatal_witness :
  run (stub_env (inl {| str := "connection refused" |}) (inr {| text := inr "unused" |}))
      (route_ask admin_logged_in (request_with_cookie "admin") "What is consent?") tt
  = (inl (Library {| str := "connection refused" |}), tt,
     [encode ["What is consent?"]; search COLLECTION_NAME [0%Z] 5 true]).
Proof.
  exact (@index_failure_is_fatal stub_collaborators unit
           (stub_env (inl {| str := "connection refused" |})
                     (inr {| text := inr "unused" |}))
           admin_logged_in (request_with_cookie "admin") "What is consent?" "admin"
           tt [0%Z] [] tt (inl {| str := "connection refused" |}) tt
           eq_refl eq_refl eq_refl).
Defined.

Lemma prompt_construction_witness :
  build_prompt "What is consent?"
    (enumerate_loop 1 [stub_hit "alpha" "a.pdf" 9100; stub_hit "beta" "b.pdf" 8700]
       [] []).1
  = "You are a Data Protection expert AI. Use the following document context to answer the user's question:

CONTEXT:
1. alpha
2. beta

QUESTION:
What is consent?

ANSWER:"
  ∧ (λ r, payload r !! "text")
      <$> [stub_hit "alpha" "other.pdf" 1; stub_hit "beta" "b.pdf" 2]
    = (λ r, payload r !! "text")
        <$> [stub_hit "alpha" "a.pdf" 9100; stub_hit "beta" "b.pdf" 8700]
  ∧ build_prompt "What is consent?"
      (enumerate_loop 1 [stub_hit "alpha" "other.pdf" 1; stub_hit "beta" "b.pdf" 2]
         [] []).1
    = build_prompt "What is consent?"
        (enumerate_loop 1 [stub_hit "alpha" "a.pdf" 9100; stub_hit "beta" "b.pdf" 8700]
           [] []).1.
Proof.
  assert (Htexts : (λ r, payload r !! "text")
                     <$> [stub_hit "alpha" "other.pdf" 1; stub_hit "beta" "b.pdf" 2]
                   = (λ r, payload r !! "text")
                       <$> [stub_hit "alpha" "a.pdf" 9100; stub_hit "beta" "b.pdf" 8700]).
  { vm_compute. reflexivity. }
  pose proof (@prompt_construction stub_collaborators "What is consent?"
                [stub_hit "alpha" "a.pdf" 9100; stub_hit "beta" "b.pdf" 8700])
    as (_ & _ & Hprompt & Honly & _).
  split; [exact Hprompt|]. split; [exact Htexts|].
  exact (Honly [stub_hit "alpha" "other.pdf" 1; stub_hit "beta" "b.pdf" 2] Htexts).
Defined.

Lemma embedding_failure_is_fatal_witness :
  run (stub_env_no_embedder {| str := "model not loaded" |})
      (route_ask admin_logged_in (request_with_cookie "admin") "What is consent?") tt
  = (inl (Library {| str := "model not loaded" |}), tt, [encode ["What is consent?"]]).
Proof.
  exact (@embedding_failure_is_fatal stub_collaborators unit
           (stub_env_no_embedder {| str := "model not loaded" |})
           admin_logged_in (request_with_cookie "admin") "What is consent?" "admin"
           tt {| str := "model not loaded" |} tt eq_refl eq_refl).
Defined.

(** C9 as stated fails: with an embedder that returns a vector for the empty
    string, an authenticated [/ask] whose question is empty goes through
    embedding, search and generation and ends with the home page. *)
Lemma empty_question_is_answered :
  run (stub_env (inr [stub_hit "alpha" "a.pdf" 9100]) (inr {| text := inr "An answer." |}))
      (route_ask admin_logged_in (request_with_cookie "admin") "") tt
  = (inr (page (request_with_cookie "admin") "admin" "" "An answer."
            ["📄 a.pdf (score: 9100)"]),
     tt,
     [encode [""];
      search "vdpo_documents" [0%Z] 5 true;
      generate_content (build_prompt "" ["1. alpha"])]).
Proof. vm_compute. reflexivity. Qed.

(** * The further properties on concrete requests *)

#[local] Existing Instance stub_codec.

Lemma login_success_witness :
  VALID_USERS initial !! "admin" = Some "admin123"
  ∧ get_current_user (login request_without_cookie "admin" "admin123" initial).2
      (request_with_cookie "admin") = inr "admin"
  ∧ (login request_without_cookie "用户" "secret"
           (exec (Signup request_without_cookie "用户" "secret") initial)).1
    = inl (Library {| str := "'latin-1' codec can't encode characters" |})
  ∧ sessions (login request_without_cookie "用户" "secret"
                    (exec (Signup request_without_cookie "用户" "secret") initial)).2
      !! "用户" = Some true.
Proof.
  assert (Hv : VALID_USERS initial !! "admin" = Some "admin123")
    by (vm_compute; reflexivity).
  assert (Hv' : VALID_USERS (exec (Signup request_without_cookie "用户" "secret") initial)
                  !! "用户" = Some "secret")
    by (vm_compute; reflexivity).
  split; [exact Hv|]. split; [|split].
  - destruct (login_success request_without_cookie "admin" "admin123" initial Hv)
      as (_ & _ & _ & Hok & _).
    destruct (Hok eq_refl) as (response & _ & _ & _ & Hcs & Hauth).
    apply Hauth; [discriminate|].
    intros k v Hin. rewrite Hcs in Hin. apply list_elem_of_singleton in Hin.
    inversion Hin. vm_compute. reflexivity.
  - destruct (login_success request_without_cookie "用户" "secret"
                (exec (Signup request_without_cookie "用户" "secret") initial) Hv')
      as (_ & _ & _ & _ & Hno).
    apply Hno. vm_compute. reflexivity.
  - exact (proj1 (proj2
      (login_success request_without_cookie "用户" "secret"
         (exec (Signup request_without_cookie "用户" "secret") initial) Hv'))).
Defined.

Lemma signup_success_witness :
  VALID_USERS initial !! "alice" = None
  ∧ (∃ response,
       (signup request_without_cookie "alice" "wonderland" initial).1 = inr response
       ∧ cookies_set response = [("username", "alice")])
  ∧ VALID_USERS initial !! "用户" = None
  ∧ (signup request_without_cookie "用户" "secret" initial).1
    = inl (Library {| str := "'latin-1' codec can't encode characters" |})
  ∧ VALID_USERS (signup request_without_cookie "用户" "secret" initial).2 !! "用户"
    = Some "secret".
Proof.
  assert (Hv : VALID_USERS initial !! "alice" = None) by (vm_compute; reflexivity).
  assert (Hv' : VALID_USERS initial !! "用户" = None) by (vm_compute; reflexivity).
  split; [exact Hv|]. split; [|split; [exact Hv'|split]].
  - destruct (signup_success request_without_cookie "alice" "wonderland" initial Hv)
      as (_ & _ & _ & Hok & _).
    destruct (Hok eq_refl) as (response & Hr & _ & _ & Hcs & _).
    exists response. split; [exact Hr | exact Hcs].
  - destruct (signup_success request_without_cookie "用户" "secret" initial Hv')
      as (_ & _ & _ & _ & Hno).
    apply Hno. vm_compute. reflexivity.
  - exact (proj1 (signup_success request_without_cookie "用户" "secret" initial Hv')).
Defined.

Lemma logout_effect_witness :
  cookies (request_with_cookie "admin") !! "username" = Some "admin"
  ∧ sessions (logout (request_with_cookie "admin") admin_logged_in).2 !! "admin" = None.
Proof.
  assert (Hc : cookies (request_with_cookie "admin") !! "username" = Some "admin")
    by (vm_compute; reflexivity).
  split; [exact Hc|].
  destruct (logout_effect (request_with_cookie "admin") admin_logged_in)
    as (_ & _ & _ & _ & _ & Hgone & _).
  exact (Hgone "admin" Hc).
Defined.

Lemma login_then_logout_witness :
  (logout (request_with_cookie "admin")
          (login request_without_cookie "admin" "admin123" initial).2).2 = initial.
Proof.
  apply (login_then_logout request_without_cookie "admin" "admin123"
           (request_with_cookie "admin") initial); vm_compute; reflexivity.
Defined.

Lemma signup_logout_login_witness :
  exec_all [Signup request_without_cookie "alice" "wonderland";
            Logout (request_with_cookie "alice");
            Login request_without_cookie "alice" "wonderland"] initial
  = exec (Signup request_without_cookie "alice" "wonderland") initial.
Proof.
  apply (signup_logout_login request_without_cookie (request_with_cookie "alice")
           request_without_cookie "alice" "wonderland" initial);
    vm_compute; reflexivity.
Defined.

Lemma passwords_never_change_witness :
  VALID_USERS
    (exec_all [Signup request_without_cookie "admin" "overwritten";
               Login request_without_cookie "admin" "overwritten";
               Logout (request_with_cookie "admin")] initial) !! "admin"
  = Some "admin123".
Proof.
  apply (passwords_never_change
           [Signup request_without_cookie "admin" "overwritten";
            Login request_without_cookie "admin" "overwritten";
            Logout (request_with_cookie "admin")] initial "admin" "admin123").
  vm_compute. reflexivity.
Defined.

Lemma admin_account_persists_witness :
  VALID_USERS (exec (Signup request_without_cookie "alice" "wonderland") initial)
    !! "admin" = Some "admin123".
Proof.
  apply (admin_account_persists
           (exec (Signup request_without_cookie "alice" "wonderland") initial)).
  apply reachable_exec, reachable_initial.
Defined.

Lemma other_users_unaffected_witness :
  sessions (exec (Logout (request_with_cookie "mallory")) admin_logged_in) !! "admin"
  = sessions admin_logged_in !! "admin".
Proof.
  refine (proj1 (proj2 (other_users_unaffected (Logout (request_with_cookie "mallory"))
                          admin_logged_in "admin" request_without_cookie _))).
  intros Heq. vm_compute in Heq. discriminate.
Defined.

Lemma authenticated_is_registered_witness :
  is_Some (VALID_USERS (exec (Login request_without_cookie "admin" "admin123") initial)
             !! "admin").
Proof.
  refine (proj2 (proj2 (authenticated_is_registered
            (exec (Login request_without_cookie "admin" "admin123") initial)
            (request_with_cookie "admin") "admin" _ _))).
  - apply reachable_exec, reachable_initial.
  - vm_compute. reflexivity.
Defined.

Lemma session_has_origin_witness :
  ∃ before m after,
    [Login request_without_cookie "admin" "admin123"] = (before ++ m :: after)%list
    ∧ opens_session m "admin" (exec_all before initial).
Proof.
  apply (session_has_origin [Login request_without_cookie "admin" "admin123"]
           initial "admin").
  - vm_compute. reflexivity.
  - exists true. vm_compute. reflexivity.
Defined.

Lemma home_route_witness :
  run (stub_env (inr []) (inr {| text := inr "unused" |}))
      (route_home admin_logged_in (request_with_cookie "admin")) tt
  = (inr (TemplateResponse "home.html"
            [("request", CRequest (request_with_cookie "admin"));
             ("user", CStr "admin")]), tt, []).
Proof.
  apply (proj1 (@home_route stub_collaborators unit
                  (stub_env (inr []) (inr {| text := inr "unused" |}))
                  admin_logged_in (request_with_cookie "admin") tt)).
  - vm_compute. reflexivity.
  - discriminate.
  - exists true. vm_compute. reflexivity.
Defined.

Lemma logout_then_refused_witness :
  run (stub_env (inr []) (inr {| text := inr "unused" |}))
      (route_home (logout (request_with_cookie "admin") admin_logged_in).2
                  (request_with_cookie "admin")) tt
  = (inl (HTTPException 401 "Not authenticated"), tt, []).
Proof.
  exact (proj1 (@logout_then_refused stub_collaborators unit
                  (stub_env (inr []) (inr {| text := inr "unused" |}))
                  admin_logged_in (request_with_cookie "admin")
                  (request_with_cookie "admin") "What is consent?" tt eq_refl)).
Defined.

Lemma ask_success_witness :
  run (stub_env (inr [stub_hit "alpha" "a.pdf" 9100; stub_hit "beta" "b.pdf" 8700])
                (inr {| text := inr "Consent is a lawful basis." |}))
      (route_ask admin_logged_in (request_with_cookie "admin") "What is consent?") tt
  = (inr {| body := Template "home.html"
                      [("request", CRequest (request_with_cookie "admin"));
                       ("user", CStr "admin");
                       ("question", CStr "What is consent?");
                       ("answer", CStr "Consent is a lawful basis.");
                       ("sources",
                        CList ["📄 a.pdf (score: 9100)"; "📄 b.pdf (score: 8700)"])];
            status_code := 200;
            cookie_ops := [] |},
     tt,
     [encode ["What is consent?"];
      search COLLECTION_NAME [0%Z] 5 true;
      generate_content (build_prompt "What is consent?" ["1. alpha"; "2. beta"])]).
Proof.
  exact (@ask_success stub_collaborators unit
           (stub_env (inr [stub_hit "alpha" "a.pdf" 9100; stub_hit "beta" "b.pdf" 8700])
                     (inr {| text := inr "Consent is a lawful basis." |}))
           admin_logged_in (request_with_cookie "admin") "What is consent?" "admin"
           tt [0%Z] [] tt
           [stub_hit "alpha" "a.pdf" 9100; stub_hit "beta" "b.pdf" 8700] tt
           {| text := inr "Consent is a lawful basis." |} tt
           "Consent is a lawful basis."
           eq_refl eq_refl eq_refl eq_refl eq_refl).
Defined.

Lemma ask_outcomes_witness :
  run (stub_env (inr []) (inr {| text := inr "unused" |}))
      (route_ask admin_logged_in request_without_cookie "What is consent?") tt
  = (inl (HTTPException 401 "Not authenticated"), tt, [])
  ∧ (run (stub_env (inr []) (inr {| text := inr "unused" |}))
         (route_ask admin_logged_in request_without_cookie "What is consent?") tt).2 = [].
Proof.
  split; [vm_compute; reflexivity|].
  pose proof (@ask_outcomes stub_collaborators unit
                (stub_env (inr []) (inr {| text := inr "unused" |}))
                admin_logged_in request_without_cookie "What is consent?" tt) as Hout.
  change ((run (stub_env (inr []) (inr {| text := inr "unused" |}))
               (route_ask admin_logged_in request_without_cookie "What is consent?")
               tt).1.1)
    with (@inl Exception Response (HTTPException 401 "Not authenticated")) in Hout.
  exact (proj2 (proj2 Hout 401%Z "Not authenticated" eq_refl)).
Defined.

Lemma ask_no_hits_witness :
  ∃ (generated : LibraryError + GenerateContentResponse) (w3 : unit) (prompt : string),
    prompt =
      "You are a Data Protection expert AI. Use the following document context to answer the user's question:"
      +:+ LF +:+ LF +:+ "CONTEXT:" +:+ LF
      +:+ LF +:+ LF +:+ "QUESTION:" +:+ LF +:+ "What is consent?"
      +:+ LF +:+ LF +:+ "ANSWER:"
    ∧ stub_env (inr []) (inr {| text := inr "I do not know." |})
               (generate_content prompt) tt = (generated, w3)
    ∧ run (stub_env (inr []) (inr {| text := inr "I do not know." |}))
          (route_ask admin_logged_in (request_with_cookie "admin") "What is consent?") tt
      = (inr (page (request_with_cookie "admin") "admin" "What is consent?"
                (answer_of generated) []), w3,
         [encode ["What is consent?"]; search COLLECTION_NAME [0%Z] 5 true;
          generate_content prompt]).
Proof.
  exact (@ask_no_hits stub_collaborators unit
           (stub_env (inr []) (inr {| text := inr "I do not know." |}))
           admin_logged_in (request_with_cookie "admin") "What is consent?" "admin"
           tt [0%Z] [] tt tt eq_refl eq_refl eq_refl).
Defined.

Lemma loop_lines_witness :
  (enumerate_loop 1 [stub_hit "alpha" "a.pdf" 9100; stub_bare_hit 8700] [] []).1 !! 1
  = Some "2. "
  ∧ (enumerate_loop 1 [stub_hit "alpha" "a.pdf" 9100; stub_bare_hit 8700] [] []).2 !! 1
    = Some "📄  (score: 8700)".
Proof.
  destruct (@loop_lines stub_collaborators
              [stub_hit "alpha" "a.pdf" 9100; stub_bare_hit 8700] 1 (stub_bare_hit 8700)
              eq_refl) as (Hchunk & Hsource & _).
  split; [exact Hchunk | exact Hsource].
Defined.

Lemma ask_no_embedding_row_witness :
  run stub_env_no_rows
      (route_ask admin_logged_in (request_with_cookie "admin") "What is consent?") tt
  = (inl IndexError, tt, [encode ["What is consent?"]]).
Proof.
  exact (@ask_no_embedding_row stub_collaborators unit stub_env_no_rows
           admin_logged_in (request_with_cookie "admin") "What is consent?" "admin"
           tt tt eq_refl eq_refl).
Defined.
